(** * Nostra event-data parser: positional field mapping

    Shallow embedding of [NostraDataParser]
    (apps/data_handler/handler_tools/data_parser/nostra.py).

    Every method of the class receives the parser instance as its first
    parameter ([self], spelled [cls] in two of them) and a Python list of
    decoded log values.  A method is embedded as a function from the
    instance (the only state a method could keep between two calls) and its
    arguments to an outcome: a returned value or a raised exception, paired
    with the instance as the call leaves it.  Parameter annotations are not
    evaluated in the model. *)

From Stdlib Require Import ZArith.
From stdpp Require Import base list strings gmap.

Local Open Scope string_scope.

(** ** Python values, exceptions and outcomes *)

(** The elements of [event_data] are annotated [Any]; decoded log values are
    integers and (hexadecimal) strings.  [PyNone] is what a function body
    that falls off its end returns. *)
Inductive PyVal : Type :=
| PyNone
| PyInt (z : Z)
| PyStr (s : string).

Inductive PyExc : Type :=
| IndexError
| NotImplementedError.

Inductive PyResult (A : Type) : Type :=
| Return (a : A)
| Raise (e : PyExc).
Arguments Return {A} a.
Arguments Raise {A} e.

(** An instance of the class: the source defines no [__init__] and no class
    attributes, so all an instance carries is its attribute dictionary. *)
Record NostraDataParser : Type := { instance_dict : gmap string PyVal }.

(** [NostraDataParser()] *)
Definition new_parser : NostraDataParser := {| instance_dict := ∅ |}.

(** Computations that run against the instance. *)
Definition Py (A : Type) : Type :=
  NostraDataParser -> PyResult A * NostraDataParser.

Definition ret {A} (a : A) : Py A := fun self => (Return a, self).

Definition raise {A} (e : PyExc) : Py A := fun self => (Raise e, self).

Definition bind {A B} (m : Py A) (k : A -> Py B) : Py B :=
  fun self =>
    match m self with
    | (Return a, self') => k a self'
    | (Raise e, self') => (Raise e, self')
    end.

Notation "x <~ m ;; k" := (bind m (fun x => k))
  (at level 100, m at next level, right associativity).

(** [l[i]] on a list: a negative index counts from the end, and an index
    outside the list raises [IndexError]. *)
Definition list_getitem (l : list PyVal) (i : Z) : Py PyVal :=
  let n := Z.of_nat (length l) in
  let j := (if i <? 0 then i + n else i)%Z in
  if ((j <? 0)%Z || (n <=? j)%Z)%bool then raise IndexError
  else match l !! Z.to_nat j with
       | Some v => ret v
       | None => raise IndexError
       end.

(** Two successive calls of the same method with the same arguments. *)
Definition call_twice {A} (m : Py A) : Py (A * A) :=
  a <~ m ;; b <~ m ;; ret (a, b).

(** The outcome of two calls that both produce [r]. *)
Definition both {A} (r : PyResult A) : PyResult (A * A) :=
  match r with
  | Return a => Return (a, a)
  | Raise e => Raise e
  end.

(** A computation is stateless when its outcome is the same whatever the
    instance holds and it hands the instance back as it received it. *)
Definition stateless {A} (m : Py A) : Prop :=
  exists r : PyResult A, forall self, m self = (r, self).

(** What the purity property asks of a method once its arguments are fixed:
    one outcome for every instance, the instance untouched, and a second call
    that repeats the first. *)
Definition pure_call {A} (m : Py A) : Prop :=
  exists r : PyResult A,
    (forall self, m self = (r, self)) /\
    (forall self, call_twice m self = (both r, self)).

(** ** The records built by the parser *)

(** Modelled from the spec: the record classes of
    [data_handler.handler_tools.data_parser.serializers] are imported by the
    source, not defined in it.  The spec's data model gives each one as a
    flat structured value with the named fields listed below, created fresh
    per call from the keyword arguments; the field names are the keywords the
    source passes.  No conversion of the stored values is modelled. *)
Module InterestRateModelEventData.
Record t : Type := mk {
  debt_token : PyVal;
  lending_index : PyVal;
  borrow_index : PyVal
}.
End InterestRateModelEventData.

Module BearingCollateralMintEventData.
Record t : Type := mk { user : PyVal; amount : PyVal }.
End BearingCollateralMintEventData.

Module BearingCollateralBurnEventData.
Record t : Type := mk { user : PyVal; amount : PyVal }.
End BearingCollateralBurnEventData.

Module DebtTransferEventData.
Record t : Type := mk {
  sender : PyVal;
  recipient : PyVal;
  amount : PyVal;
  token : PyVal
}.
End DebtTransferEventData.

Module DebtMintEventData.
Record t : Type := mk { user : PyVal; token : PyVal }.
End DebtMintEventData.

Module DebtBurnEventData.
Record t : Type := mk { user : PyVal; amount : PyVal }.
End DebtBurnEventData.

(** ** The methods of [NostraDataParser]

    Keyword arguments are evaluated left to right before the record is
    built, so the subscripts are sequenced in the order they are written. *)

Definition parse_interest_rate_model_event
    (cls : NostraDataParser) (event_data : list PyVal)
    : PyResult InterestRateModelEventData.t * NostraDataParser :=
  (debt_token <~ list_getitem event_data 0 ;;
   lending_index <~ list_getitem event_data 5 ;;
   borrow_index <~ list_getitem event_data 7 ;;
   ret (InterestRateModelEventData.mk debt_token lending_index borrow_index))
  cls.

(** [pass]: the body does nothing and the call evaluates to [None]. *)
Definition parse_non_interest_bearing_collateral_mint_event
    (self : NostraDataParser) : PyResult PyVal * NostraDataParser :=
  ret PyNone self.

Definition parse_non_interest_bearing_collateral_burn_event
    (self : NostraDataParser) : PyResult PyVal * NostraDataParser :=
  ret PyNone self.

Definition parse_interest_bearing_collateral_mint_event
    (self : NostraDataParser) (event_data : list PyVal)
    : PyResult BearingCollateralMintEventData.t * NostraDataParser :=
  (user <~ list_getitem event_data 0 ;;
   amount <~ list_getitem event_data 1 ;;
   ret (BearingCollateralMintEventData.mk user amount))
  self.

Definition parse_interest_bearing_collateral_burn_event
    (self : NostraDataParser) (event_data : list PyVal)
    : PyResult BearingCollateralBurnEventData.t * NostraDataParser :=
  (user <~ list_getitem event_data 0 ;;
   amount <~ list_getitem event_data 1 ;;
   ret (BearingCollateralBurnEventData.mk user amount))
  self.

Definition parse_debt_transfer_event
    (cls : NostraDataParser) (event_data : list PyVal) (from_address : string)
    : PyResult DebtTransferEventData.t * NostraDataParser :=
  (sender <~ list_getitem event_data 0 ;;
   recipient <~ list_getitem event_data 1 ;;
   amount <~ list_getitem event_data 2 ;;
   ret (DebtTransferEventData.mk sender recipient amount (PyStr from_address)))
  cls.

Definition parse_debt_mint_event
    (self : NostraDataParser) (event_data : list PyVal)
    : PyResult DebtMintEventData.t * NostraDataParser :=
  (user <~ list_getitem event_data 0 ;;
   token <~ list_getitem event_data 1 ;;
   ret (DebtMintEventData.mk user token))
  self.

Definition parse_debt_burn_event
    (self : NostraDataParser) (event_data : list PyVal)
    : PyResult DebtBurnEventData.t * NostraDataParser :=
  (user <~ list_getitem event_data 0 ;;
   amount <~ list_getitem event_data 1 ;;
   ret (DebtBurnEventData.mk user amount))
  self.

(** The inputs of the spec's two worked examples. *)
Definition interest_rate_example : list PyVal :=
  [PyStr "0xabc"; PyInt 1; PyInt 2; PyInt 3; PyInt 4;
   PyInt 100000000000000000; PyInt 6; PyInt 7; PyInt 200000000000000000].

(** The example with every position other than 0, 5 and 7 changed, and two
    more elements appended. *)
Definition interest_rate_example_other : list PyVal :=
  [PyStr "0xabc"; PyStr "a"; PyNone; PyInt 9; PyInt (-4);
   PyInt 100000000000000000; PyStr "b"; PyInt 7;
   PyStr "c"; PyInt 0; PyNone].

Definition debt_burn_example : list PyVal := [PyStr "0xuser"; PyInt 42].

(** A transfer payload whose fourth element is the token contract's own
    address. *)
Definition transfer_with_token_at_3 : list PyVal :=
  [PyStr "0xa"; PyStr "0xb"; PyInt 5; PyStr "0xtok"].

(** ** Subscripts *)

Lemma list_getitem_nonneg (l : list PyVal) (i : Z) (self : NostraDataParser) :
  (0 <= i)%Z ->
  list_getitem l i self =
    match l !! Z.to_nat i with
    | Some v => (Return v, self)
    | None => (Raise IndexError, self)
    end.
Proof.
  intros Hi. unfold list_getitem. cbv zeta.
  pose proof (proj2 (Z.ltb_ge i 0) Hi) as Hlt.
  rewrite Hlt; cbv iota; rewrite Hlt; simpl.
  destruct (Z.leb_spec (Z.of_nat (length l)) i) as [Hout|Hin].
  - rewrite (proj2 (lookup_ge_None l (Z.to_nat i))) by lia. reflexivity.
  - destruct (l !! Z.to_nat i); reflexivity.
Qed.

Example getitem_last :
  list_getitem debt_burn_example (-1) new_parser = (Return (PyInt 42), new_parser).
Proof. reflexivity. Qed.

Example getitem_past_end :
  list_getitem debt_burn_example 2 new_parser = (Raise IndexError, new_parser).
Proof. reflexivity. Qed.

(** A subscript with a non-negative index followed by the rest of the body. *)
Lemma bind_getitem {B} (l : list PyVal) (i : Z) (k : PyVal -> Py B)
    (self : NostraDataParser) :
  (0 <= i)%Z ->
  bind (list_getitem l i) k self =
    match l !! Z.to_nat i with
    | Some v => k v self
    | None => (Raise IndexError, self)
    end.
Proof.
  intros Hi. unfold bind. rewrite list_getitem_nonneg by exact Hi.
  destruct (l !! Z.to_nat i); reflexivity.
Qed.

Ltac step_subscript :=
  rewrite bind_getitem by lia;
  match goal with
  | |- context [Z.to_nat ?c] =>
      let n := eval compute in (Z.to_nat c) in change (Z.to_nat c) with n
  end.

(** ** What each method computes, in terms of list lookups *)

(** The four methods that read positions 0 and 1 share one shape. *)
Lemma two_fields_eq {B} (mk : PyVal -> PyVal -> B) (l : list PyVal)
    (self : NostraDataParser) :
  (a <~ list_getitem l 0 ;; b <~ list_getitem l 1 ;; ret (mk a b)) self =
    match l !! 0, l !! 1 with
    | Some a, Some b => (Return (mk a b), self)
    | _, _ => (Raise IndexError, self)
    end.
Proof.
  step_subscript. destruct (l !! 0) as [a|]; [|reflexivity].
  step_subscript. destruct (l !! 1) as [b|]; reflexivity.
Qed.

Lemma parse_interest_rate_model_event_eq (cls : NostraDataParser)
    (event_data : list PyVal) :
  parse_interest_rate_model_event cls event_data =
    match event_data !! 0, event_data !! 5, event_data !! 7 with
    | Some d, Some li, Some bi =>
        (Return (InterestRateModelEventData.mk d li bi), cls)
    | _, _, _ => (Raise IndexError, cls)
    end.
Proof.
  unfold parse_interest_rate_model_event.
  step_subscript. destruct (event_data !! 0) as [d|]; [|reflexivity].
  step_subscript. destruct (event_data !! 5) as [li|]; [|reflexivity].
  step_subscript. destruct (event_data !! 7) as [bi|]; reflexivity.
Qed.

Lemma parse_debt_transfer_event_eq (cls : NostraDataParser)
    (event_data : list PyVal) (from_address : string) :
  parse_debt_transfer_event cls event_data from_address =
    match event_data !! 0, event_data !! 1, event_data !! 2 with
    | Some s, Some r, Some a =>
        (Return (DebtTransferEventData.mk s r a (PyStr from_address)), cls)
    | _, _, _ => (Raise IndexError, cls)
    end.
Proof.
  unfold parse_debt_transfer_event.
  step_subscript. destruct (event_data !! 0) as [s|]; [|reflexivity].
  step_subscript. destruct (event_data !! 1) as [r|]; [|reflexivity].
  step_subscript. destruct (event_data !! 2) as [a|]; reflexivity.
Qed.

(** A list that is long enough has an element at the position. *)
Lemma lookup_within (l : list PyVal) (i : nat) :
  i < length l -> exists v, l !! i = Some v.
Proof. intros H. apply lookup_lt_is_Some_2 in H. destruct H as [v Hv]; eauto. Qed.

(** A list that is too short has none. *)
Lemma lookup_beyond (l : list PyVal) (i : nat) :
  length l <= i -> l !! i = None.
Proof. apply lookup_ge_None. Qed.

(** ** Statelessness, compositionally *)

Lemma stateless_ret {A} (a : A) : stateless (ret a).
Proof. exists (Return a). reflexivity. Qed.

Lemma stateless_raise {A} (e : PyExc) : stateless (@raise A e).
Proof. exists (Raise e). reflexivity. Qed.

Lemma stateless_getitem (l : list PyVal) (i : Z) : stateless (list_getitem l i).
Proof.
  unfold stateless, list_getitem. cbv zeta.
  destruct (_ || _)%bool.
  - exists (Raise IndexError). reflexivity.
  - destruct (l !! _) as [v|].
    + exists (Return v). reflexivity.
    + exists (Raise IndexError). reflexivity.
Qed.

Lemma stateless_bind {A B} (m : Py A) (k : A -> Py B) :
  stateless m -> (forall a, stateless (k a)) -> stateless (bind m k).
Proof.
  intros [r Hr] Hk. destruct r as [a|e].
  - destruct (Hk a) as [rk Hrk]. exists rk. intros self.
    unfold bind. rewrite Hr. apply Hrk.
  - exists (Raise e). intros self. unfold bind. rewrite Hr. reflexivity.
Qed.

Create HintDb stateless.
#[local] Hint Resolve stateless_ret stateless_raise stateless_getitem
  stateless_bind : stateless.

(** Calling a stateless computation twice gives its outcome twice and leaves
    the instance alone. *)
Lemma stateless_call_twice {A} (m : Py A) (r : PyResult A) :
  (forall self, m self = (r, self)) ->
  forall self, call_twice m self = (both r, self).
Proof.
  intros Hr self. unfold call_twice, bind. rewrite Hr.
  destruct r as [a|e]; [|reflexivity].
  rewrite Hr. reflexivity.
Qed.

Lemma stateless_pure_call {A} (m : Py A) : stateless m -> pure_call m.
Proof.
  intros [r Hr]. exists r. split; [exact Hr|].
  apply stateless_call_twice, Hr.
Qed.

(** ** Interest-rate-model events *)

(** Whenever positions 0, 5 and 7 hold values, the record is built from
    them and the instance is untouched. *)
Lemma parse_interest_rate_model_event_ok (cls : NostraDataParser)
    (event_data : list PyVal) (d li bi : PyVal) :
  event_data !! 0 = Some d -> event_data !! 5 = Some li ->
  event_data !! 7 = Some bi ->
  parse_interest_rate_model_event cls event_data =
    (Return (InterestRateModelEventData.mk d li bi), cls).
Proof.
  intros H0 H5 H7. rewrite parse_interest_rate_model_event_eq, H0, H5, H7.
  reflexivity.
Qed.

(** C1, as amended: on every list of at least 8 elements,
    [parse_interest_rate_model_event] returns the record whose
    [debt_token], [lending_index] and [borrow_index] are the elements at
    positions 0, 5 and 7; on the spec's nine-element example it returns
    debt_token="0xabc", lending_index=100000000000000000 and borrow_index=7,
    the element at position 7 (200000000000000000 sits at position 8, which
    is not read). *)
Theorem parse_interest_rate_model_event_fields :
  (forall (cls : NostraDataParser) (event_data : list PyVal),
      8 <= length event_data ->
      exists d li bi : PyVal,
        event_data !! 0 = Some d /\ event_data !! 5 = Some li /\
        event_data !! 7 = Some bi /\
        parse_interest_rate_model_event cls event_data =
          (Return {| InterestRateModelEventData.debt_token := d;
                     InterestRateModelEventData.lending_index := li;
                     InterestRateModelEventData.borrow_index := bi |}, cls))
  /\
  (forall cls : NostraDataParser,
      parse_interest_rate_model_event cls interest_rate_example =
        (Return {| InterestRateModelEventData.debt_token := PyStr "0xabc";
                   InterestRateModelEventData.lending_index :=
                     PyInt 100000000000000000;
                   InterestRateModelEventData.borrow_index := PyInt 7 |},
         cls)).
Proof.
  split.
  - intros cls event_data Hlen.
    destruct (lookup_within event_data 0) as [d Hd]; [lia|].
    destruct (lookup_within event_data 5) as [li Hli]; [lia|].
    destruct (lookup_within event_data 7) as [bi Hbi]; [lia|].
    exists d, li, bi. repeat split; try assumption.
    now apply parse_interest_rate_model_event_ok.
  - intros cls. apply parse_interest_rate_model_event_ok; reflexivity.
Qed.

(** C1 as the spec words it fails on its own example: the record returned
    for the nine-element input does not carry
    borrow_index=200000000000000000, for any instance and any state the call
    could leave it in. *)
Lemma parse_interest_rate_model_event_example_borrow_index :
  interest_rate_example !! 7 = Some (PyInt 7) /\
  interest_rate_example !! 8 = Some (PyInt 200000000000000000) /\
  ~ (exists cls cls' : NostraDataParser,
        parse_interest_rate_model_event cls interest_rate_example =
          (Return {| InterestRateModelEventData.debt_token := PyStr "0xabc";
                     InterestRateModelEventData.lending_index :=
                       PyInt 100000000000000000;
                     InterestRateModelEventData.borrow_index :=
                       PyInt 200000000000000000 |}, cls')).
Proof.
  split; [reflexivity|]. split; [reflexivity|].
  intros (cls & cls' & H).
  rewrite (parse_interest_rate_model_event_ok cls interest_rate_example
             (PyStr "0xabc") (PyInt 100000000000000000) (PyInt 7)) in H
    by reflexivity.
  discriminate H.
Qed.

Lemma parse_interest_rate_model_event_fields_witness :
  8 <= length interest_rate_example /\
  exists d li bi : PyVal,
    interest_rate_example !! 0 = Some d /\
    interest_rate_example !! 5 = Some li /\
    interest_rate_example !! 7 = Some bi /\
    parse_interest_rate_model_event new_parser interest_rate_example =
      (Return (InterestRateModelEventData.mk d li bi), new_parser).
Proof.
  split.
  - simpl. lia.
  - apply (proj1 parse_interest_rate_model_event_fields new_parser
             interest_rate_example).
    simpl. lia.
Defined.

(** C8: a list of exactly 8 elements is enough: the call returns a record
    and raises nothing, although no ninth element exists. *)
Theorem parse_interest_rate_model_event_eight :
  forall (cls : NostraDataParser) (event_data : list PyVal),
    length event_data = 8 ->
    event_data !! 8 = None /\
    exists r : InterestRateModelEventData.t,
      parse_interest_rate_model_event cls event_data = (Return r, cls).
Proof.
  intros cls event_data Hlen. split.
  - apply lookup_beyond. lia.
  - destruct (lookup_within event_data 0) as [d Hd]; [lia|].
    destruct (lookup_within event_data 5) as [li Hli]; [lia|].
    destruct (lookup_within event_data 7) as [bi Hbi]; [lia|].
    exists (InterestRateModelEventData.mk d li bi).
    now apply parse_interest_rate_model_event_ok.
Qed.

Lemma parse_interest_rate_model_event_eight_witness :
  length (take 8 interest_rate_example) = 8 /\
  take 8 interest_rate_example !! 8 = None /\
  exists r : InterestRateModelEventData.t,
    parse_interest_rate_model_event new_parser (take 8 interest_rate_example) =
      (Return r, new_parser).
Proof.
  split.
  - reflexivity.
  - apply (parse_interest_rate_model_event_eight new_parser
             (take 8 interest_rate_example)).
    reflexivity.
Defined.

(** C9: two lists of at least 8 elements that agree at positions 0, 5 and 7
    yield the same record, whatever they hold elsewhere and whatever their
    lengths. *)
Theorem parse_interest_rate_model_event_depends_on_0_5_7 :
  forall (cls1 cls2 : NostraDataParser) (l1 l2 : list PyVal),
    8 <= length l1 -> 8 <= length l2 ->
    l1 !! 0 = l2 !! 0 -> l1 !! 5 = l2 !! 5 -> l1 !! 7 = l2 !! 7 ->
    exists r : InterestRateModelEventData.t,
      parse_interest_rate_model_event cls1 l1 = (Return r, cls1) /\
      parse_interest_rate_model_event cls2 l2 = (Return r, cls2).
Proof.
  intros cls1 cls2 l1 l2 Hlen1 Hlen2 E0 E5 E7.
  destruct (lookup_within l1 0) as [d Hd]; [lia|].
  destruct (lookup_within l1 5) as [li Hli]; [lia|].
  destruct (lookup_within l1 7) as [bi Hbi]; [lia|].
  exists (InterestRateModelEventData.mk d li bi). split.
  - now apply parse_interest_rate_model_event_ok.
  - apply parse_interest_rate_model_event_ok; congruence.
Qed.

Lemma parse_interest_rate_model_event_depends_on_0_5_7_witness :
  exists r : InterestRateModelEventData.t,
    parse_interest_rate_model_event new_parser interest_rate_example =
      (Return r, new_parser) /\
    parse_interest_rate_model_event new_parser interest_rate_example_other =
      (Return r, new_parser).
Proof.
  apply (parse_interest_rate_model_event_depends_on_0_5_7
           new_parser new_parser
           interest_rate_example interest_rate_example_other).
  - simpl. lia.
  - simpl. lia.
  - reflexivity.
  - reflexivity.
  - reflexivity.
Defined.

(** ** Debt-transfer events *)

Lemma parse_debt_transfer_event_ok (cls : NostraDataParser)
    (event_data : list PyVal) (from_address : string) (s r a : PyVal) :
  event_data !! 0 = Some s -> event_data !! 1 = Some r ->
  event_data !! 2 = Some a ->
  parse_debt_transfer_event cls event_data from_address =
    (Return (DebtTransferEventData.mk s r a (PyStr from_address)), cls).
Proof.
  intros H0 H1 H2. rewrite parse_debt_transfer_event_eq, H0, H1, H2.
  reflexivity.
Qed.

(** C2, as amended: on every list of at least 3 elements and every
    [from_address], [parse_debt_transfer_event] returns the record with
    [sender], [recipient] and [amount] the elements at positions 0, 1 and 2
    and [token] equal to [from_address]; the token is never taken from
    position 3: it equals the element there exactly when [from_address]
    itself does. *)
Theorem parse_debt_transfer_event_fields :
  forall (cls : NostraDataParser) (event_data : list PyVal)
         (from_address : string),
    3 <= length event_data ->
    exists s r a : PyVal,
      event_data !! 0 = Some s /\ event_data !! 1 = Some r /\
      event_data !! 2 = Some a /\
      parse_debt_transfer_event cls event_data from_address =
        (Return {| DebtTransferEventData.sender := s;
                   DebtTransferEventData.recipient := r;
                   DebtTransferEventData.amount := a;
                   DebtTransferEventData.token := PyStr from_address |}, cls)
      /\
      forall (rec : DebtTransferEventData.t) (cls' : NostraDataParser)
             (x : PyVal),
        parse_debt_transfer_event cls event_data from_address =
          (Return rec, cls') ->
        event_data !! 3 = Some x ->
        (DebtTransferEventData.token rec = x <-> PyStr from_address = x).
Proof.
  intros cls event_data from_address Hlen.
  destruct (lookup_within event_data 0) as [s Hs]; [lia|].
  destruct (lookup_within event_data 1) as [r Hr]; [lia|].
  destruct (lookup_within event_data 2) as [a Ha]; [lia|].
  pose proof (parse_debt_transfer_event_ok cls event_data from_address
                s r a Hs Hr Ha) as Hok.
  exists s, r, a.
  split; [assumption|]. split; [assumption|]. split; [assumption|].
  split; [exact Hok|].
  intros rec cls' x Hcall _. rewrite Hok in Hcall.
  injection Hcall as <- _. reflexivity.
Qed.

Lemma parse_debt_transfer_event_fields_witness :
  exists s r a : PyVal,
    transfer_with_token_at_3 !! 0 = Some s /\
    transfer_with_token_at_3 !! 1 = Some r /\
    transfer_with_token_at_3 !! 2 = Some a /\
    parse_debt_transfer_event new_parser transfer_with_token_at_3 "0xfeed" =
      (Return (DebtTransferEventData.mk s r a (PyStr "0xfeed")), new_parser)
    /\
    forall (rec : DebtTransferEventData.t) (cls' : NostraDataParser)
           (x : PyVal),
      parse_debt_transfer_event new_parser transfer_with_token_at_3 "0xfeed" =
        (Return rec, cls') ->
      transfer_with_token_at_3 !! 3 = Some x ->
      (DebtTransferEventData.token rec = x <-> PyStr "0xfeed" = x).
Proof.
  apply (parse_debt_transfer_event_fields new_parser
           transfer_with_token_at_3 "0xfeed").
  simpl. lia.
Defined.

(** C2 as the spec words it fails when the caller's [from_address] is the
    value that also sits at position 3: the call returns, and the returned
    token equals that element. *)
Lemma parse_debt_transfer_event_token_equals_index_3 :
  3 <= length transfer_with_token_at_3 /\
  exists rec : DebtTransferEventData.t,
    parse_debt_transfer_event new_parser transfer_with_token_at_3 "0xtok" =
      (Return rec, new_parser) /\
    transfer_with_token_at_3 !! 3 = Some (DebtTransferEventData.token rec).
Proof.
  split; [simpl; lia|].
  exists (DebtTransferEventData.mk (PyStr "0xa") (PyStr "0xb") (PyInt 5)
            (PyStr "0xtok")).
  split; reflexivity.
Qed.

(** C10: two lists of at least 3 elements that agree at positions 0, 1 and
    2, called with the same [from_address], yield the same record, whatever
    they hold from position 3 on. *)
Theorem parse_debt_transfer_event_depends_on_0_1_2 :
  forall (cls1 cls2 : NostraDataParser) (l1 l2 : list PyVal)
         (from_address : string),
    3 <= length l1 -> 3 <= length l2 ->
    l1 !! 0 = l2 !! 0 -> l1 !! 1 = l2 !! 1 -> l1 !! 2 = l2 !! 2 ->
    exists rec : DebtTransferEventData.t,
      parse_debt_transfer_event cls1 l1 from_address = (Return rec, cls1) /\
      parse_debt_transfer_event cls2 l2 from_address = (Return rec, cls2).
Proof.
  intros cls1 cls2 l1 l2 from_address Hlen1 Hlen2 E0 E1 E2.
  destruct (lookup_within l1 0) as [s Hs]; [lia|].
  destruct (lookup_within l1 1) as [r Hr]; [lia|].
  destruct (lookup_within l1 2) as [a Ha]; [lia|].
  exists (DebtTransferEventData.mk s r a (PyStr from_address)). split.
  - now apply parse_debt_transfer_event_ok.
  - apply parse_debt_transfer_event_ok; congruence.
Qed.

Lemma parse_debt_transfer_event_depends_on_0_1_2_witness :
  exists rec : DebtTransferEventData.t,
    parse_debt_transfer_event new_parser transfer_with_token_at_3 "0xfeed" =
      (Return rec, new_parser) /\
    parse_debt_transfer_event new_parser (take 3 transfer_with_token_at_3)
      "0xfeed" = (Return rec, new_parser).
Proof.
  apply (parse_debt_transfer_event_depends_on_0_1_2 new_parser new_parser
           transfer_with_token_at_3 (take 3 transfer_with_token_at_3)
           "0xfeed").
  - simpl. lia.
  - simpl. lia.
  - reflexivity.
  - reflexivity.
  - reflexivity.
Defined.

(** ** The two methods without a body *)

(** C3, as amended: each of the two unimplemented methods returns [None]
    and raises nothing, whatever the instance; the instance is left as it
    was. *)
Theorem parse_non_interest_bearing_collateral_events_return_none :
  forall self : NostraDataParser,
    parse_non_interest_bearing_collateral_mint_event self =
      (Return PyNone, self) /\
    parse_non_interest_bearing_collateral_burn_event self =
      (Return PyNone, self).
Proof. intros self. split; reflexivity. Qed.

(** C3 as the spec words it fails: on a fresh instance neither method
    raises [NotImplementedError]; both hand back a value. *)
Lemma parse_non_interest_bearing_collateral_events_do_not_raise :
  fst (parse_non_interest_bearing_collateral_mint_event new_parser)
    <> Raise NotImplementedError /\
  fst (parse_non_interest_bearing_collateral_burn_event new_parser)
    <> Raise NotImplementedError /\
  (exists v, fst (parse_non_interest_bearing_collateral_mint_event new_parser)
             = Return v) /\
  (exists v, fst (parse_non_interest_bearing_collateral_burn_event new_parser)
             = Return v).
Proof.
  repeat split; try discriminate; exists PyNone; reflexivity.
Qed.

(** ** Debt mint and burn events *)

(** C5: on every list of at least 2 elements, [parse_debt_mint_event]
    returns the [DebtMintEventData] record whose [user] is the element at
    position 0 and whose [token] (the record has no amount field) is the
    element at position 1. *)
Theorem parse_debt_mint_event_fields :
  forall (self : NostraDataParser) (event_data : list PyVal),
    2 <= length event_data ->
    exists u t : PyVal,
      event_data !! 0 = Some u /\ event_data !! 1 = Some t /\
      parse_debt_mint_event self event_data =
        (Return {| DebtMintEventData.user := u;
                   DebtMintEventData.token := t |}, self).
Proof.
  intros self event_data Hlen.
  destruct (lookup_within event_data 0) as [u Hu]; [lia|].
  destruct (lookup_within event_data 1) as [t Ht]; [lia|].
  exists u, t. split; [assumption|]. split; [assumption|].
  unfold parse_debt_mint_event. rewrite two_fields_eq, Hu, Ht. reflexivity.
Qed.

Lemma parse_debt_mint_event_fields_witness :
  exists u t : PyVal,
    debt_burn_example !! 0 = Some u /\ debt_burn_example !! 1 = Some t /\
    parse_debt_mint_event new_parser debt_burn_example =
      (Return (DebtMintEventData.mk u t), new_parser).
Proof.
  apply (parse_debt_mint_event_fields new_parser debt_burn_example).
  simpl. lia.
Defined.

(** C6: on every list of at least 2 elements, [parse_debt_burn_event]
    returns the record with [user] the element at position 0 and [amount]
    the element at position 1; on ["0xuser", 42] it returns user="0xuser",
    amount=42. *)
Theorem parse_debt_burn_event_fields :
  (forall (self : NostraDataParser) (event_data : list PyVal),
      2 <= length event_data ->
      exists u a : PyVal,
        event_data !! 0 = Some u /\ event_data !! 1 = Some a /\
        parse_debt_burn_event self event_data =
          (Return {| DebtBurnEventData.user := u;
                     DebtBurnEventData.amount := a |}, self))
  /\
  (forall self : NostraDataParser,
      parse_debt_burn_event self debt_burn_example =
        (Return {| DebtBurnEventData.user := PyStr "0xuser";
                   DebtBurnEventData.amount := PyInt 42 |}, self)).
Proof.
  split.
  - intros self event_data Hlen.
    destruct (lookup_within event_data 0) as [u Hu]; [lia|].
    destruct (lookup_within event_data 1) as [a Ha]; [lia|].
    exists u, a. split; [assumption|]. split; [assumption|].
    unfold parse_debt_burn_event. rewrite two_fields_eq, Hu, Ha. reflexivity.
  - intros self. unfold parse_debt_burn_event. rewrite two_fields_eq.
    reflexivity.
Qed.

Lemma parse_debt_burn_event_fields_witness :
  exists u a : PyVal,
    debt_burn_example !! 0 = Some u /\ debt_burn_example !! 1 = Some a /\
    parse_debt_burn_event new_parser debt_burn_example =
      (Return (DebtBurnEventData.mk u a), new_parser).
Proof.
  apply (proj1 parse_debt_burn_event_fields new_parser debt_burn_example).
  simpl. lia.
Defined.

(** ** Lists that are too short *)

(** A two-subscript body on a list of fewer than 2 elements. *)
Lemma two_fields_short {B} (mk : PyVal -> PyVal -> B) (l : list PyVal)
    (self : NostraDataParser) :
  length l < 2 ->
  (a <~ list_getitem l 0 ;; b <~ list_getitem l 1 ;; ret (mk a b)) self =
    (Raise IndexError, self).
Proof.
  intros Hlen. rewrite two_fields_eq, (lookup_beyond l 1) by lia.
  destruct (l !! 0); reflexivity.
Qed.

(** C4: a list shorter than what a method reads (8 elements for
    [parse_interest_rate_model_event], 3 for [parse_debt_transfer_event], 2
    for the interest-bearing collateral mint and burn, the debt mint and the
    debt burn methods) makes the call raise [IndexError]; the outcome is the
    exception, so no record, complete or partial, is returned. *)
Theorem short_event_data_raises_index_error :
  (forall (cls : NostraDataParser) (event_data : list PyVal),
      length event_data < 8 ->
      parse_interest_rate_model_event cls event_data =
        (Raise IndexError, cls))
  /\
  (forall (cls : NostraDataParser) (event_data : list PyVal)
          (from_address : string),
      length event_data < 3 ->
      parse_debt_transfer_event cls event_data from_address =
        (Raise IndexError, cls))
  /\
  (forall (self : NostraDataParser) (event_data : list PyVal),
      length event_data < 2 ->
      parse_interest_bearing_collateral_mint_event self event_data =
        (Raise IndexError, self) /\
      parse_interest_bearing_collateral_burn_event self event_data =
        (Raise IndexError, self) /\
      parse_debt_mint_event self event_data = (Raise IndexError, self) /\
      parse_debt_burn_event self event_data = (Raise IndexError, self)).
Proof.
  split; [|split].
  - intros cls event_data Hlen.
    rewrite parse_interest_rate_model_event_eq.
    rewrite (lookup_beyond event_data 7) by lia.
    destruct (event_data !! 0); [|reflexivity].
    destruct (event_data !! 5); reflexivity.
  - intros cls event_data from_address Hlen.
    rewrite parse_debt_transfer_event_eq.
    rewrite (lookup_beyond event_data 2) by lia.
    destruct (event_data !! 0); [|reflexivity].
    destruct (event_data !! 1); reflexivity.
  - intros self event_data Hlen.
    repeat split; now apply two_fields_short.
Qed.

Lemma short_event_data_raises_index_error_witness :
  parse_interest_rate_model_event new_parser (take 7 interest_rate_example) =
    (Raise IndexError, new_parser) /\
  parse_debt_transfer_event new_parser (take 2 transfer_with_token_at_3)
    "0xfeed" = (Raise IndexError, new_parser) /\
  parse_interest_bearing_collateral_mint_event new_parser [PyStr "0xuser"] =
    (Raise IndexError, new_parser) /\
  parse_interest_bearing_collateral_burn_event new_parser [] =
    (Raise IndexError, new_parser) /\
  parse_debt_mint_event new_parser [PyStr "0xuser"] =
    (Raise IndexError, new_parser) /\
  parse_debt_burn_event new_parser [] = (Raise IndexError, new_parser).
Proof.
  split; [|split; [|split; [|split; [|split]]]].
  - apply (proj1 short_event_data_raises_index_error new_parser
             (take 7 interest_rate_example)).
    simpl. lia.
  - apply (proj1 (proj2 short_event_data_raises_index_error) new_parser
             (take 2 transfer_with_token_at_3) "0xfeed").
    simpl. lia.
  - apply (proj2 (proj2 short_event_data_raises_index_error) new_parser
             [PyStr "0xuser"]).
    simpl. lia.
  - apply (proj2 (proj2 short_event_data_raises_index_error) new_parser []).
    simpl. lia.
  - apply (proj2 (proj2 short_event_data_raises_index_error) new_parser
             [PyStr "0xuser"]).
    simpl. lia.
  - apply (proj2 (proj2 short_event_data_raises_index_error) new_parser []).
    simpl. lia.
Defined.

(** ** Purity *)

(** C7: every implemented method, at any fixed arguments, has one outcome
    for all instances, leaves the instance exactly as it found it, and gives
    that same outcome again when called a second time: two calls with the
    same input yield records with identical fields. *)
Theorem implemented_mappers_are_pure :
  forall (event_data : list PyVal) (from_address : string),
    pure_call (fun cls => parse_interest_rate_model_event cls event_data) /\
    pure_call (fun self =>
                 parse_interest_bearing_collateral_mint_event self event_data) /\
    pure_call (fun self =>
                 parse_interest_bearing_collateral_burn_event self event_data) /\
    pure_call (fun cls =>
                 parse_debt_transfer_event cls event_data from_address) /\
    pure_call (fun self => parse_debt_mint_event self event_data) /\
    pure_call (fun self => parse_debt_burn_event self event_data).
Proof.
  intros event_data from_address.
  repeat split; apply stateless_pure_call;
    unfold parse_interest_rate_model_event,
      parse_interest_bearing_collateral_mint_event,
      parse_interest_bearing_collateral_burn_event,
      parse_debt_transfer_event, parse_debt_mint_event, parse_debt_burn_event;
    auto 10 with stateless.
Qed.

(** ** Interest-bearing collateral events *)

(** X1: on every list of at least 2 elements,
    [parse_interest_bearing_collateral_mint_event] returns the record whose
    [user] is the element at position 0 and whose [amount] is the element at
    position 1, and leaves the instance as it was. *)
Theorem parse_interest_bearing_collateral_mint_event_fields :
  forall (self : NostraDataParser) (event_data : list PyVal),
    2 <= length event_data ->
    exists u a : PyVal,
      event_data !! 0 = Some u /\ event_data !! 1 = Some a /\
      parse_interest_bearing_collateral_mint_event self event_data =
        (Return {| BearingCollateralMintEventData.user := u;
                   BearingCollateralMintEventData.amount := a |}, self).
Proof.
  intros self event_data Hlen.
  destruct (lookup_within event_data 0) as [u Hu]; [lia|].
  destruct (lookup_within event_data 1) as [a Ha]; [lia|].
  exists u, a. split; [assumption|]. split; [assumption|].
  unfold parse_interest_bearing_collateral_mint_event.
  rewrite two_fields_eq, Hu, Ha. reflexivity.
Qed.

Lemma parse_interest_bearing_collateral_mint_event_fields_witness :
  exists u a : PyVal,
    debt_burn_example !! 0 = Some u /\ debt_burn_example !! 1 = Some a /\
    parse_interest_bearing_collateral_mint_event new_parser debt_burn_example =
      (Return (BearingCollateralMintEventData.mk u a), new_parser).
Proof.
  apply (parse_interest_bearing_collateral_mint_event_fields new_parser
           debt_burn_example).
  simpl. lia.
Defined.

(** X2: on every list of at least 2 elements,
    [parse_interest_bearing_collateral_burn_event] returns the burn record
    (not the mint record its docstring names) whose [user] is the element at
    position 0 and whose [amount] is the element at position 1. *)
Theorem parse_interest_bearing_collateral_burn_event_fields :
  forall (self : NostraDataParser) (event_data : list PyVal),
    2 <= length event_data ->
    exists u a : PyVal,
      event_data !! 0 = Some u /\ event_data !! 1 = Some a /\
      parse_interest_bearing_collateral_burn_event self event_data =
        (Return {| BearingCollateralBurnEventData.user := u;
                   BearingCollateralBurnEventData.amount := a |}, self).
Proof.
  intros self event_data Hlen.
  destruct (lookup_within event_data 0) as [u Hu]; [lia|].
  destruct (lookup_within event_data 1) as [a Ha]; [lia|].
  exists u, a. split; [assumption|]. split; [assumption|].
  unfold parse_interest_bearing_collateral_burn_event.
  rewrite two_fields_eq, Hu, Ha. reflexivity.
Qed.

Lemma parse_interest_bearing_collateral_burn_event_fields_witness :
  exists u a : PyVal,
    debt_burn_example !! 0 = Some u /\ debt_burn_example !! 1 = Some a /\
    parse_interest_bearing_collateral_burn_event new_parser debt_burn_example =
      (Return (BearingCollateralBurnEventData.mk u a), new_parser).
Proof.
  apply (parse_interest_bearing_collateral_burn_event_fields new_parser
           debt_burn_example).
  simpl. lia.
Defined.

(** ** Only a prefix of the payload is read *)

(** Lookups below the cut survive truncation. *)
Lemma lookup_take_below (l : list PyVal) (n i : nat) :
  i < n -> take n l !! i = l !! i.
Proof. apply lookup_take_lt. Qed.

(** Two lists with the same first two lookups give a two-subscript body the
    same outcome. *)
Lemma two_fields_agree {B} (mk : PyVal -> PyVal -> B) (l1 l2 : list PyVal)
    (self : NostraDataParser) :
  l1 !! 0 = l2 !! 0 -> l1 !! 1 = l2 !! 1 ->
  (a <~ list_getitem l1 0 ;; b <~ list_getitem l1 1 ;; ret (mk a b)) self =
  (a <~ list_getitem l2 0 ;; b <~ list_getitem l2 1 ;; ret (mk a b)) self.
Proof. intros E0 E1. rewrite !two_fields_eq, E0, E1. reflexivity. Qed.

(** X3: for every payload, long or short, the outcome of
    [parse_interest_rate_model_event] is that of its first 8 elements, and
    the outcome of [parse_debt_transfer_event] is that of its first 3:
    truncating the payload there changes neither the record returned nor the
    exception raised. *)
Theorem long_mappers_read_a_prefix :
  forall (cls : NostraDataParser) (event_data : list PyVal)
         (from_address : string),
    parse_interest_rate_model_event cls (take 8 event_data) =
      parse_interest_rate_model_event cls event_data /\
    parse_debt_transfer_event cls (take 3 event_data) from_address =
      parse_debt_transfer_event cls event_data from_address.
Proof.
  intros cls event_data from_address. split.
  - rewrite !parse_interest_rate_model_event_eq.
    rewrite !lookup_take_below by lia. reflexivity.
  - rewrite !parse_debt_transfer_event_eq.
    rewrite !lookup_take_below by lia. reflexivity.
Qed.

(** X4: for every payload, long or short, each of the four methods that
    read positions 0 and 1 gives the outcome it gives on the first 2
    elements alone. *)
Theorem short_mappers_read_a_prefix :
  forall (self : NostraDataParser) (event_data : list PyVal),
    parse_interest_bearing_collateral_mint_event self (take 2 event_data) =
      parse_interest_bearing_collateral_mint_event self event_data /\
    parse_interest_bearing_collateral_burn_event self (take 2 event_data) =
      parse_interest_bearing_collateral_burn_event self event_data /\
    parse_debt_mint_event self (take 2 event_data) =
      parse_debt_mint_event self event_data /\
    parse_debt_burn_event self (take 2 event_data) =
      parse_debt_burn_event self event_data.
Proof.
  intros self event_data.
  repeat split; apply two_fields_agree; apply lookup_take_below; lia.
Qed.

(** ** The record determines what was read *)

(** X5: [parse_interest_rate_model_event] loses nothing of the three
    positions it reads: two payloads on which it returns the same record
    hold the same elements at positions 0, 5 and 7. *)
Theorem parse_interest_rate_model_event_injective :
  forall (cls1 cls2 cls1' cls2' : NostraDataParser) (l1 l2 : list PyVal)
         (r : InterestRateModelEventData.t),
    parse_interest_rate_model_event cls1 l1 = (Return r, cls1') ->
    parse_interest_rate_model_event cls2 l2 = (Return r, cls2') ->
    l1 !! 0 = l2 !! 0 /\ l1 !! 5 = l2 !! 5 /\ l1 !! 7 = l2 !! 7.
Proof.
  intros cls1 cls2 cls1' cls2' l1 l2 r H1 H2.
  rewrite parse_interest_rate_model_event_eq in H1, H2.
  destruct (l1 !! 0), (l1 !! 5), (l1 !! 7); try discriminate H1.
  destruct (l2 !! 0), (l2 !! 5), (l2 !! 7); try discriminate H2.
  injection H1 as <- _. injection H2 as -> -> -> _.
  repeat split; reflexivity.
Qed.

Lemma parse_interest_rate_model_event_injective_witness :
  interest_rate_example !! 0 = interest_rate_example_other !! 0 /\
  interest_rate_example !! 5 = interest_rate_example_other !! 5 /\
  interest_rate_example !! 7 = interest_rate_example_other !! 7.
Proof.
  apply (parse_interest_rate_model_event_injective
           new_parser new_parser new_parser new_parser
           interest_rate_example interest_rate_example_other
           (InterestRateModelEventData.mk (PyStr "0xabc")
              (PyInt 100000000000000000) (PyInt 7))).
  - reflexivity.
  - reflexivity.
Defined.

(** X6: [parse_debt_transfer_event] loses nothing of its inputs either: two
    calls that return the same record were given the same [from_address]
    and payloads with the same elements at positions 0, 1 and 2. *)
Theorem parse_debt_transfer_event_injective :
  forall (cls1 cls2 cls1' cls2' : NostraDataParser) (l1 l2 : list PyVal)
         (from1 from2 : string) (r : DebtTransferEventData.t),
    parse_debt_transfer_event cls1 l1 from1 = (Return r, cls1') ->
    parse_debt_transfer_event cls2 l2 from2 = (Return r, cls2') ->
    from1 = from2 /\
    l1 !! 0 = l2 !! 0 /\ l1 !! 1 = l2 !! 1 /\ l1 !! 2 = l2 !! 2.
Proof.
  intros cls1 cls2 cls1' cls2' l1 l2 from1 from2 r H1 H2.
  rewrite parse_debt_transfer_event_eq in H1, H2.
  destruct (l1 !! 0), (l1 !! 1), (l1 !! 2); try discriminate H1.
  destruct (l2 !! 0), (l2 !! 1), (l2 !! 2); try discriminate H2.
  injection H1 as <- _. injection H2 as -> -> -> -> _.
  repeat split; reflexivity.
Qed.

Lemma parse_debt_transfer_event_injective_witness :
  "0xfeed" = "0xfeed" /\
  transfer_with_token_at_3 !! 0 = take 3 transfer_with_token_at_3 !! 0 /\
  transfer_with_token_at_3 !! 1 = take 3 transfer_with_token_at_3 !! 1 /\
  transfer_with_token_at_3 !! 2 = take 3 transfer_with_token_at_3 !! 2.
Proof.
  apply (parse_debt_transfer_event_injective
           new_parser new_parser new_parser new_parser
           transfer_with_token_at_3 (take 3 transfer_with_token_at_3)
           "0xfeed" "0xfeed"
           (DebtTransferEventData.mk (PyStr "0xa") (PyStr "0xb") (PyInt 5)
              (PyStr "0xfeed"))).
  - reflexivity.
  - reflexivity.
Defined.

(** ** The methods do not tell event kinds apart *)




